(** * api.ashes.live: the authentication views

    A shallow embedding of [api/views/auth.py] (the two endpoints [log_in]
    and [reset_password]) together with the request schema
    [api/schemas/user.py:UserEmailIn] they consume, and the properties of
    the login / password-reset protocol proved about them.

    Python values are modelled as follows.
    - [str] is [string].  [str.lower] is Python's own and is a parameter
      of the views, as are the other functions they call that are not in
      the two files; what a property needs of it is stated as a premise.
    - A [User] row is a record with the four columns the views read or
      write.  The table is a [list] in query order; [.first()] returns the
      first matching row, and a row object is a pair of its position and its
      columns, so that [session.commit()] writes the mutated object back to
      the row it was loaded from.
    - An endpoint is a computation in a state-and-exception monad over the
      [World]: exceptions do not undo the state changes made before them.
    - [uuid.uuid4()] and [send_message] are answered by the world (a supply
      of identifiers, and an acceptance oracle for outgoing mail).
    - [verify_password], [access_token_for_user] and [settings] live in
      modules that are not part of the two files; they are parameters too. *)

From Stdlib Require Import String Ascii NArith ZArith List Bool Lia.
From stdpp Require Import base list strings.
Import ListNotations.

Local Open Scope string_scope.
Local Open Scope list_scope.

(** ** Identifiers: [uuid.UUID] *)

(** A [uuid.UUID] is represented by its 128-bit integer value. *)
Definition UUID := N.

Definition hex_digit (d : N) : ascii :=
  match String.get (N.to_nat d) "0123456789abcdef" with
  | Some c => c
  | None => "0"%char
  end.

(** ['%0<width>x' % n], for [n] below [16 ^ width]. *)
Fixpoint hex_fixed (width : nat) (n : N) : string :=
  match width with
  | O => ""
  | S k => hex_fixed k (n / 16)%N +:+ String (hex_digit (n mod 16)%N) ""
  end.

(** [str(u)] for a [uuid.UUID]: the 8-4-4-4-12 hexadecimal form. *)
Definition uuid_str (u : UUID) : string :=
  let hex := hex_fixed 32 u in
  substring 0 8 hex +:+ "-" +:+ substring 8 4 hex +:+ "-" +:+
  substring 12 4 hex +:+ "-" +:+ substring 16 4 hex +:+ "-" +:+
  substring 20 12 hex.

(** [str(x)] for an [Optional[UUID]], as an f-string renders it. *)
Definition str_optional_uuid (x : option UUID) : string :=
  match x with
  | Some u => uuid_str u
  | None => "None"
  end.

(** ** Data model *)

(** The columns of [api.models.User] that the authentication views use. *)
Module User.
Record t := mk {
  email : string;
  password : string;          (* the stored hash *)
  is_banned : bool;
  reset_uuid : option UUID
}.

(** [user.reset_uuid = v] *)
Definition set_reset_uuid (v : option UUID) (u : t) : t :=
  {| email := email u; password := password u;
     is_banned := is_banned u; reset_uuid := v |}.
End User.

(** [fastapi.security.OAuth2PasswordRequestForm]: the two fields in use. *)
Module OAuth2PasswordRequestForm.
Record t := mk { username : string; password : string }.
End OAuth2PasswordRequestForm.

(** [api.schemas.user.UserEmailIn] *)
Module UserEmailIn.
Record t := mk { email : string }.
End UserEmailIn.

(** [api.schemas.auth.AuthTokenOut], the body returned by [log_in]. *)
Record AuthTokenOut := { access_token : string; token_type : string }.

(** [api.schemas.DetailResponse] *)
Record DetailResponse := { detail : string }.

(** [api.environment.settings]: the two settings [reset_password] reads. *)
Record Settings := { debug : bool; sendgrid_reset_template : string }.

(** The keyword arguments of one [send_message] call. *)
Record ResetData := { reset_token : option UUID; data_email : string }.
Record Message := {
  recipient : string;
  template_id : string;
  data : ResetData
}.

(** One record written through [logger]. *)
Inductive LogRecord := DEBUG (msg : string).

(** The exceptions the two views can end with.  [AttributeError] is the one
    Python raises when an attribute of [None] is read. *)
Inductive exn :=
| CredentialsException (detail : string)
| BannedUserException
| NotFoundException (detail : string)
| APIException (detail : string)
| AttributeError.

(** ** The world and the monad of the views *)

Record World := {
  users : list User.t;                 (* the committed rows, in query order *)
  uuid_source : nat -> UUID;            (* what the next calls of uuid4 return *)
  mailer : nat -> Message -> bool;      (* whether the next sends are accepted *)
  outbox : list Message;               (* the messages handed to send_message *)
  log : list LogRecord                 (* what was written to the log *)
}.

Inductive result (A : Type) :=
| Return (a : A)
| Raise (e : exn).
Arguments Return {A} a.
Arguments Raise {A} e.

Definition M (A : Type) : Type := World -> result A * World.

Definition ret {A} (a : A) : M A := fun w => (Return a, w).

Definition raise {A} (e : exn) : M A := fun w => (Raise e, w).

Definition bind {A B} (c : M A) (k : A -> M B) : M B :=
  fun w =>
    match c w with
    | (Return a, w') => k a w'
    | (Raise e, w') => (Raise e, w')
    end.

Notation "'let!' x ':=' c 'in' k" := (bind c (fun x => k))
  (at level 10, x pattern, c at level 100, k at level 200).
Notation "c ';;' k" := (bind c (fun _ => k))
  (at level 100, k at level 200, right associativity).

(** A loaded row object: the position of the row and its columns. *)
Definition Row : Type := nat * User.t.

(** The first row of a table whose [email] column equals [email]. *)
Definition first_by_email (email : string) (rows : list User.t)
  : option Row :=
  list_find (fun u => User.email u = email) rows.

(** [session.query(User).filter(User.email == email).first()] *)
Definition query_first_by_email (email : string) : M (option Row) :=
  fun w => (Return (first_by_email email (users w)), w).

(** Truth value of an [Optional[User]]: a model instance is truthy, [None]
    is falsy. *)
Definition truthy (user : option Row) : bool :=
  match user with
  | Some _ => true
  | None => false
  end.

(** [user.<column>]: reading an attribute of [None] raises. *)
Definition getattr {A} (column : User.t -> A) (user : option Row) : M A :=
  match user with
  | Some (_, u) => ret (column u)
  | None => raise AttributeError
  end.

(** [user.reset_uuid = v]: the object is mutated, the row is not yet. *)
Definition setattr_reset_uuid (user : option Row) (v : UUID)
  : M (option Row) :=
  match user with
  | Some (i, u) => ret (Some (i, User.set_reset_uuid (Some v) u))
  | None => raise AttributeError
  end.

(** [session.commit()] with [user] the only object that can be dirty. *)
Definition commit (user : option Row) : M unit :=
  fun w =>
    match user with
    | Some (i, u) =>
        (Return tt,
         {| users := <[i := u]> (users w); uuid_source := uuid_source w;
            mailer := mailer w; outbox := outbox w; log := log w |})
    | None => (Return tt, w)
    end.

(** [uuid.uuid4()] *)
Definition uuid4 : M UUID :=
  fun w =>
    (Return (uuid_source w 0),
     {| users := users w; uuid_source := fun n => uuid_source w (S n);
        mailer := mailer w; outbox := outbox w; log := log w |}).

(** [send_message(recipient=..., template_id=..., data=...)] *)
Definition send_message (m : Message) : M bool :=
  fun w =>
    (Return (mailer w 0 m),
     {| users := users w; uuid_source := uuid_source w;
        mailer := fun n => mailer w (S n); outbox := outbox w ++ [m];
        log := log w |}).

(** [logger.debug(msg)] *)
Definition logger_debug (msg : string) : M unit :=
  fun w =>
    (Return tt,
     {| users := users w; uuid_source := uuid_source w; mailer := mailer w;
        outbox := outbox w; log := log w ++ [DEBUG msg] |}).

(** ** The views *)

Section Views.

(** [str.lower()] *)
Variable lower : string -> string.

(** [api.utils.auth.verify_password(plain, hashed)] *)
Variable verify_password : string -> string -> bool.

(** [api.services.user.access_token_for_user(user)] *)
Variable access_token_for_user : User.t -> string.

Variable settings : Settings.

(** [log_in], the handler of [POST /token]. *)
Definition log_in (form_data : OAuth2PasswordRequestForm.t)
  : M AuthTokenOut :=
  let email := lower (OAuth2PasswordRequestForm.username form_data) in
  let! user := query_first_by_email email in
  let! rejected :=
    (if negb (truthy user) then ret true
     else
       let! hashed := getattr User.password user in
       ret (negb (verify_password
                    (OAuth2PasswordRequestForm.password form_data) hashed)))
  in
  if rejected : bool then
    raise (CredentialsException "Incorrect username or password")
  else
    let! banned := getattr User.is_banned user in
    if banned : bool then raise BannedUserException
    else
      let! access_token := getattr access_token_for_user user in
      ret {| access_token := access_token; token_type := "bearer" |}.

(** [reset_password], the handler of [POST /reset]. *)
Definition reset_password (data : UserEmailIn.t) : M DetailResponse :=
  let email := lower (UserEmailIn.email data) in
  let! user := query_first_by_email email in
  let! banned := getattr User.is_banned user in
  if banned : bool then raise BannedUserException
  else if negb (truthy user) then
    raise (NotFoundException "No account found for email.")
  else
    let! fresh := uuid4 in
    let! user := setattr_reset_uuid user fresh in
    commit user ;;
    let! to := getattr User.email user in
    let! token := getattr User.reset_uuid user in
    let! sent :=
      send_message
        {| recipient := to;
           template_id := sendgrid_reset_template settings;
           data := {| reset_token := token; data_email := to |} |} in
    if negb sent then
      (if debug settings then
         logger_debug
           ("RESET TOKEN FOR " +:+ email +:+ ": " +:+
            str_optional_uuid token)
       else ret tt) ;;
      raise
        (APIException
           "Unable to send password reset email; please contact the site owner.")
    else
      ret {| detail :=
               "A link to reset your password has been sent to your email!" |}.

End Views.


(** The message [reset_password] hands to [send_message] for the account
    [u] once [token] is stored on it. *)
Definition reset_message (settings : Settings) (u : User.t) (token : UUID)
  : Message :=
  {| recipient := User.email u;
     template_id := sendgrid_reset_template settings;
     data := {| reset_token := Some token; data_email := User.email u |} |}.

(** The two details the views attach to their failures. *)
Definition incorrect_login : exn :=
  CredentialsException "Incorrect username or password".

Definition mail_failure : exn :=
  APIException
    "Unable to send password reset email; please contact the site owner.".

(** The line [reset_password] writes to the log for [email] and [token]. *)
Definition reset_log_line (email : string) (token : UUID) : LogRecord :=
  DEBUG ("RESET TOKEN FOR " +:+ email +:+ ": " +:+ uuid_str token).

(** The world [reset_password] leaves behind once it has passed its two
    checks for the row [u] at position [i], found under [email]. *)
Definition world_after_reset (settings : Settings) (email : string)
  (i : nat) (u : User.t) (w : World) : World :=
  let token := uuid_source w 0 in
  let m := reset_message settings u token in
  {| users := <[i := User.set_reset_uuid (Some token) u]> (users w);
     uuid_source := fun n => uuid_source w (S n);
     mailer := fun n => mailer w (S n);
     outbox := outbox w ++ [m];
     log := if mailer w 0 m then log w
            else if debug settings then log w ++ [reset_log_line email token]
                 else log w |}.

Definition reset_confirmation : DetailResponse :=
  {| detail := "A link to reset your password has been sent to your email!" |}.

(** ** A small world for the scenarios *)

(** Two accounts: one in good standing, one banned. *)
Definition example_users : list User.t :=
  [User.mk "user@example.com" "correct" false None;
   User.mk "banned@example.com" "secret" true None].

(** [uuid4] hands out 1, 2, 3, ...; the dispatcher always answers
    [accept]. *)
Definition example_world (accept : bool) : World :=
  {| users := example_users;
     uuid_source := fun n => N.of_nat (S n);
     mailer := fun _ _ => accept;
     outbox := [];
     log := [] |}.

Definition example_settings (dbg : bool) : Settings :=
  {| debug := dbg; sendgrid_reset_template := "d-reset" |}.

(** A stand-in for [str.lower] in the scenarios, exact on ASCII text: the
    letters [A]..[Z] go to [a]..[z], every other character stays. *)
Definition ascii_lower_char (c : ascii) : ascii :=
  let n := nat_of_ascii c in
  if (65 <=? n)%nat && (n <=? 90)%nat then ascii_of_nat (n + 32) else c.

Fixpoint ascii_lower (s : string) : string :=
  match s with
  | EmptyString => EmptyString
  | String c s' => String (ascii_lower_char c) (ascii_lower s')
  end.

(** A stand-in for [verify_password] in the scenarios: the stored hash is
    the password itself. *)
Definition plain_verify (plain hashed : string) : bool :=
  String.eqb plain hashed.

(** A stand-in for [access_token_for_user] in the scenarios. *)
Definition example_token (u : User.t) : string :=
  "token:" +:+ User.email u.


(** A table in which one address was stored with capital letters. *)
Definition example_mixed_world : World :=
  {| users :=
       [User.mk "Admin@Example.com" "root" false None;
        User.mk "user@example.com" "correct" false None];
     uuid_source := fun n => N.of_nat (S n);
     mailer := fun _ _ => true;
     outbox := [];
     log := [] |}.

(** A table with two accounts in good standing. *)
Definition example_pair_world : World :=
  {| users :=
       [User.mk "alice@example.com" "a-secret" false None;
        User.mk "bob@example.com" "b-secret" false None];
     uuid_source := fun n => N.of_nat (S n);
     mailer := fun _ _ => true;
     outbox := [];
     log := [] |}.

(** ** The stand-in for [str.lower]: lowering twice is lowering once *)

Lemma ascii_lower_char_idempotent (c : ascii) :
  ascii_lower_char (ascii_lower_char c) = ascii_lower_char c.
Proof. destruct c as [[] [] [] [] [] [] [] []]; reflexivity. Qed.

Lemma ascii_lower_idempotent (s : string) :
  ascii_lower (ascii_lower s) = ascii_lower s.
Proof.
  induction s as [|c s IH]; simpl; [reflexivity|].
  now rewrite ascii_lower_char_idempotent, IH.
Qed.

(** ** The table: a committed row is found again *)

Lemma first_by_email_email email rows i u :
  first_by_email email rows = Some (i, u) -> User.email u = email.
Proof.
  unfold first_by_email. intros H. apply list_find_Some in H. tauto.
Qed.

Lemma first_by_email_insert email (rows : list User.t) i u u' :
  first_by_email email rows = Some (i, u) ->
  User.email u' = email ->
  first_by_email email (<[i := u']> rows) = Some (i, u').
Proof.
  unfold first_by_email. intros H E.
  apply list_find_Some in H. destruct H as (Hi & _ & Hleast).
  apply list_find_Some. split; [|split].
  - apply list_lookup_insert_eq. eapply lookup_lt_Some, Hi.
  - exact E.
  - intros j y Hj Hlt. rewrite list_lookup_insert_ne in Hj by lia.
    eapply Hleast; eassumption.
Qed.

Lemma first_by_email_set_reset_uuid email (rows : list User.t) i u v :
  first_by_email email rows = Some (i, u) ->
  first_by_email email (<[i := User.set_reset_uuid v u]> rows)
  = Some (i, User.set_reset_uuid v u).
Proof.
  intros H. eapply first_by_email_insert; [exact H|].
  simpl. eapply first_by_email_email, H.
Qed.

(** Unfolds one run of a view down to the table lookup. *)
Ltac run_view :=
  unfold log_in, reset_password, bind, query_first_by_email, getattr,
    setattr_reset_uuid, commit, uuid4, send_message, logger_debug, ret,
    raise, truthy, incorrect_login, mail_failure, reset_message;
  simpl.

(** ** Login *)

Section Login.

Variable lower : string -> string.
Variable verify_password : string -> string -> bool.
Variable access_token_for_user : User.t -> string.

Local Abbreviation login :=
  (log_in lower verify_password access_token_for_user).
Local Abbreviation username := OAuth2PasswordRequestForm.username.
Local Abbreviation submitted := OAuth2PasswordRequestForm.password.

(** The whole of [log_in], by cases on the lookup. *)
Lemma log_in_cases form_data w :
  login form_data w =
  (match first_by_email (lower (username form_data)) (users w) with
   | None => Raise incorrect_login
   | Some (_, u) =>
       if verify_password (submitted form_data) (User.password u) then
         if User.is_banned u then Raise BannedUserException
         else Return {| access_token := access_token_for_user u;
                        token_type := "bearer" |}
       else Raise incorrect_login
   end, w).
Proof.
  run_view.
  destruct (first_by_email _ _) as [[i u]|]; simpl; [|reflexivity].
  destruct (verify_password _ _); simpl; [|reflexivity].
  destruct (User.is_banned u); reflexivity.
Qed.

(** C1: when the submitted email, lowered, matches no stored row, [log_in]
    raises [CredentialsException] with the detail "Incorrect username or
    password" and changes nothing; this is the very outcome it gives for a
    stored account whose password does not verify, and it is not a
    [NotFoundException]. *)
Theorem C1_login_unknown_email_invalid_credentials form_data w :
  first_by_email (lower (username form_data)) (users w) = None ->
  login form_data w = (Raise incorrect_login, w) /\
  (forall d, fst (login form_data w) <> Raise (NotFoundException d)) /\
  (forall form_data' w' i u,
      first_by_email (lower (username form_data')) (users w') = Some (i, u) ->
      verify_password (submitted form_data') (User.password u) = false ->
      fst (login form_data' w') = fst (login form_data w)).
Proof.
  intros Hq. rewrite log_in_cases, Hq. split; [reflexivity|]. split.
  - intros d. discriminate.
  - intros form_data' w' i u Hq' Hv. now rewrite log_in_cases, Hq', Hv.
Qed.

(** C8: for a stored account that is not banned, a submitted password that
    verifies against the stored hash makes [log_in] return the access
    token of that account with token type "bearer", and one that does not
    verify makes it raise [CredentialsException]; the world is untouched
    either way. *)
Theorem C8_login_success_or_invalid form_data w i u :
  first_by_email (lower (username form_data)) (users w) = Some (i, u) ->
  User.is_banned u = false ->
  (verify_password (submitted form_data) (User.password u) = true ->
   login form_data w =
   (Return {| access_token := access_token_for_user u;
              token_type := "bearer" |}, w)) /\
  (verify_password (submitted form_data) (User.password u) = false ->
   login form_data w = (Raise incorrect_login, w)).
Proof.
  intros Hq Hb. rewrite log_in_cases, Hq, Hb.
  split; intros ->; reflexivity.
Qed.

(** C9: [log_in] checks the password before the ban flag.  It raises
    [BannedUserException] only for a stored, banned account whose
    submitted password verifies; for a banned account whose password does
    not verify it raises [CredentialsException]. *)
Theorem C9_login_banned_only_after_verification form_data w :
  (fst (login form_data w) = Raise BannedUserException ->
   exists i u,
     first_by_email (lower (username form_data)) (users w) = Some (i, u) /\
     User.is_banned u = true /\
     verify_password (submitted form_data) (User.password u) = true) /\
  (forall i u,
      first_by_email (lower (username form_data)) (users w) = Some (i, u) ->
      User.is_banned u = true ->
      verify_password (submitted form_data) (User.password u) = false ->
      login form_data w = (Raise incorrect_login, w)).
Proof.
  rewrite log_in_cases. split.
  - simpl. destruct (first_by_email _ _) as [[i u]|]; [|discriminate].
    destruct (verify_password _ _) eqn:Hv; [|discriminate].
    destruct (User.is_banned u) eqn:Hb; [|discriminate].
    intros _. exists i, u. auto.
  - intros i u -> _ ->. reflexivity.
Qed.

End Login.

(** ** Password reset *)

Section Reset.

Variable lower : string -> string.
Variable settings : Settings.

Local Abbreviation reset := (reset_password lower settings).
Local Abbreviation address := UserEmailIn.email.

(** The whole of [reset_password], by cases on the lookup. *)
Lemma reset_password_cases data w :
  reset data w =
  match first_by_email (lower (address data)) (users w) with
  | None => (Raise AttributeError, w)
  | Some (i, u) =>
      if User.is_banned u then (Raise BannedUserException, w)
      else
        (if mailer w 0 (reset_message settings u (uuid_source w 0))
         then Return reset_confirmation
         else Raise mail_failure,
         world_after_reset settings (lower (address data)) i u w)
  end.
Proof.
  run_view. unfold world_after_reset, reset_message, reset_log_line.
  destruct (first_by_email _ _) as [[i u]|]; simpl; [|reflexivity].
  destruct (User.is_banned u); simpl; [reflexivity|].
  destruct (mailer w 0 _); simpl; [reflexivity|].
  destruct (debug settings); reflexivity.
Qed.

(** The row a reset was requested for is found again afterwards, at the
    same position, carrying the identifier drawn for it. *)
Lemma first_by_email_after_reset email i u w :
  first_by_email email (users w) = Some (i, u) ->
  first_by_email email (users (world_after_reset settings email i u w))
  = Some (i, User.set_reset_uuid (Some (uuid_source w 0)) u).
Proof. intros H. simpl. now apply first_by_email_set_reset_uuid. Qed.

(** C10: [reset_password] reads [user.is_banned] before it tests [user].
    When the lookup finds no row the view ends with [AttributeError], an
    error outside the failure kinds of the endpoint, having changed
    nothing; and no run of the view, on any input, ends with
    [NotFoundException]: that branch cannot be reached. *)
Theorem C10_reset_lookup_miss_is_attribute_error data w :
  first_by_email (lower (address data)) (users w) = None ->
  reset data w = (Raise AttributeError, w) /\
  (forall data' w' d, fst (reset data' w') <> Raise (NotFoundException d)).
Proof.
  intros Hq. split.
  - now rewrite reset_password_cases, Hq.
  - intros data' w' d. rewrite reset_password_cases.
    destruct (first_by_email (lower (address data')) (users w'))
      as [[i u]|]; [|simpl; discriminate].
    destruct (User.is_banned u); simpl; [discriminate|].
    destruct (mailer w' 0 _); discriminate.
Qed.

(** C4: for a stored account that is not banned, when the dispatcher
    rejects the reset message, [reset_password] raises the [APIException]
    of the failed notification, and the identifier drawn for the request is
    already committed: looking the account up afterwards finds the same row
    with that identifier in [reset_uuid], so the field is not empty. *)
Theorem C4_reset_token_persisted_on_dispatch_failure data w i u :
  first_by_email (lower (address data)) (users w) = Some (i, u) ->
  User.is_banned u = false ->
  mailer w 0 (reset_message settings u (uuid_source w 0)) = false ->
  fst (reset data w) = Raise mail_failure /\
  exists u',
    first_by_email (lower (address data)) (users (snd (reset data w)))
    = Some (i, u') /\
    User.reset_uuid u' = Some (uuid_source w 0) /\
    User.reset_uuid u' <> None.
Proof.
  intros Hq Hb Hm. rewrite reset_password_cases, Hq, Hb, Hm.
  split; [reflexivity|].
  exists (User.set_reset_uuid (Some (uuid_source w 0)) u).
  split; [|split].
  - unfold snd. now apply first_by_email_after_reset.
  - reflexivity.
  - discriminate.
Qed.


End Reset.

(** ** Properties of the two views together *)

Section Protocol.

Variable lower : string -> string.
Variable verify_password : string -> string -> bool.
Variable access_token_for_user : User.t -> string.
Variable settings : Settings.

Local Abbreviation login :=
  (log_in lower verify_password access_token_for_user).
Local Abbreviation reset := (reset_password lower settings).
Local Abbreviation username := OAuth2PasswordRequestForm.username.
Local Abbreviation submitted := OAuth2PasswordRequestForm.password.
Local Abbreviation address := UserEmailIn.email.

(** [log_in] leaves the world as it found it. *)
Lemma log_in_world form_data w : snd (login form_data w) = w.
Proof. now rewrite log_in_cases. Qed.

(** What [reset_password] does to the log. *)
Lemma reset_password_log data w :
  log (snd (reset data w)) =
  match first_by_email (lower (address data)) (users w) with
  | None => log w
  | Some (_, u) =>
      if User.is_banned u then log w
      else if mailer w 0 (reset_message settings u (uuid_source w 0))
           then log w
           else if debug settings
                then log w ++ [reset_log_line (lower (address data))
                                              (uuid_source w 0)]
                else log w
  end.
Proof.
  rewrite reset_password_cases.
  destruct (first_by_email (lower (address data)) (users w)) as [[i u]|];
    [|reflexivity].
  destruct (User.is_banned u); reflexivity.
Qed.

(** C2 (amended): for a stored account whose ban flag is set, [log_in]
    raises [BannedUserException] when the submitted password verifies and
    [CredentialsException] when it does not, and [reset_password] for the
    same address raises [BannedUserException]; none of them changes the
    world. *)
Theorem C2_banned_account_outcomes form_data data w i u :
  first_by_email (lower (username form_data)) (users w) = Some (i, u) ->
  User.is_banned u = true ->
  lower (address data) = lower (username form_data) ->
  login form_data w =
  (if verify_password (submitted form_data) (User.password u)
   then Raise BannedUserException else Raise incorrect_login, w) /\
  reset data w = (Raise BannedUserException, w).
Proof.
  intros Hq Hb He. split.
  - rewrite log_in_cases, Hq, Hb. reflexivity.
  - rewrite reset_password_cases, He, Hq, Hb. reflexivity.
Qed.

(** C5: both views apply [str.lower] to the submitted address and look the
    account up under the result, and read the address nowhere else: the
    run of each view is the one its cases give for the first row stored
    under the lowered address.  So two addresses that lower to the same
    string have the same run, result and final world alike; and, lowering
    [e] twice being lowering it once, the run on [e] is the run on the
    lowered [e]. *)
Theorem C5_views_lower_email_before_lookup e secret w :
  lower (lower e) = lower e ->
  (login (OAuth2PasswordRequestForm.mk e secret) w =
   login (OAuth2PasswordRequestForm.mk (lower e) secret) w /\
   reset (UserEmailIn.mk e) w = reset (UserEmailIn.mk (lower e)) w) /\
  (forall e',
      lower e' = lower e ->
      login (OAuth2PasswordRequestForm.mk e' secret) w =
      login (OAuth2PasswordRequestForm.mk e secret) w /\
      reset (UserEmailIn.mk e') w = reset (UserEmailIn.mk e) w) /\
  login (OAuth2PasswordRequestForm.mk e secret) w =
  (match first_by_email (lower e) (users w) with
   | None => Raise incorrect_login
   | Some (_, u) =>
       if verify_password secret (User.password u) then
         if User.is_banned u then Raise BannedUserException
         else Return {| access_token := access_token_for_user u;
                        token_type := "bearer" |}
       else Raise incorrect_login
   end, w) /\
  reset (UserEmailIn.mk e) w =
  match first_by_email (lower e) (users w) with
  | None => (Raise AttributeError, w)
  | Some (i, u) =>
      if User.is_banned u then (Raise BannedUserException, w)
      else
        (if mailer w 0 (reset_message settings u (uuid_source w 0))
         then Return reset_confirmation
         else Raise mail_failure,
         world_after_reset settings (lower e) i u w)
  end.
Proof.
  intros Hidem. split; [split|split; [|split]].
  - rewrite !log_in_cases. simpl. now rewrite Hidem.
  - rewrite !reset_password_cases. simpl. now rewrite Hidem.
  - intros e' He. split.
    + rewrite !log_in_cases. simpl. now rewrite He.
    + rewrite !reset_password_cases. simpl. now rewrite He.
  - now rewrite log_in_cases.
  - now rewrite reset_password_cases.
Qed.

(** C7: [reset_password] writes the identifier to the log only when
    [settings.debug] is on and the dispatcher rejected the message: either
    the log is unchanged, or both hold and the one line added is the one
    carrying the identifier.  With [settings.debug] off the log after a run
    of either view is the log before it, so two runs from worlds with the
    same log, whatever identifiers [uuid4] hands out in each, end with the
    same log. *)
Theorem C7_reset_token_logged_only_under_debug data w :
  (log (snd (reset data w)) = log w \/
   debug settings = true /\
   fst (reset data w) = Raise mail_failure /\
   exists i u,
     first_by_email (lower (address data)) (users w) = Some (i, u) /\
     mailer w 0 (reset_message settings u (uuid_source w 0)) = false /\
     log (snd (reset data w)) =
     log w ++ [reset_log_line (lower (address data)) (uuid_source w 0)]) /\
  (debug settings = false ->
   log (snd (reset data w)) = log w /\
   (forall form_data, log (snd (login form_data w)) = log w) /\
   (forall w2, log w2 = log w ->
               log (snd (reset data w2)) = log (snd (reset data w)))).
Proof.
  split.
  - rewrite reset_password_log, reset_password_cases.
    destruct (first_by_email (lower (address data)) (users w))
      as [[i u]|]; [|now left].
    destruct (User.is_banned u); [now left|].
    destruct (mailer w 0 _) eqn:Hm; [now left|].
    destruct (debug settings); [|now left].
    right. split; [reflexivity|]. split; [reflexivity|].
    exists i, u. auto.
  - intros Hd.
    assert (Hlog : forall w', log (snd (reset data w')) = log w').
    { intros w'. rewrite reset_password_log, Hd.
      destruct (first_by_email _ _) as [[i u]|]; [|reflexivity].
      destruct (User.is_banned u); [reflexivity|].
      destruct (mailer w' 0 _); reflexivity. }
    split; [apply Hlog|]. split.
    + intros form_data. now rewrite log_in_world.
    + intros w2 H2. now rewrite !Hlog.
Qed.

End Protocol.

(** ** The scenarios of the specification, run *)

(** C3: the view run on an address that was never registered.  The
    endpoint documents a 404 for it and has the branch that raises
    [NotFoundException], but the run ends with [AttributeError] before that
    branch. *)
Theorem C3_reset_unregistered_email_run :
  first_by_email "nobody@example.com" (users (example_world true)) = None /\
  reset_password ascii_lower (example_settings false)
    (UserEmailIn.mk "nobody@example.com") (example_world true)
  = (Raise AttributeError, example_world true) /\
  fst (reset_password ascii_lower (example_settings false)
         (UserEmailIn.mk "nobody@example.com") (example_world true))
  <> Raise (NotFoundException "No account found for email.").
Proof. split; [reflexivity|]. split; [reflexivity|]. discriminate. Qed.

(** With [settings.debug] on and the dispatcher rejecting, the line with
    the identifier is what the log receives. *)
Example reset_debug_log_run :
  log (snd (reset_password ascii_lower (example_settings true)
              (UserEmailIn.mk "User@Example.com") (example_world false)))
  = [DEBUG "RESET TOKEN FOR user@example.com: 00000000-0000-0000-0000-000000000001"].
Proof. reflexivity. Qed.

Lemma C1_witness :
  first_by_email (ascii_lower "Nobody@Example.com") (users (example_world true))
  = None /\
  log_in ascii_lower plain_verify example_token
    (OAuth2PasswordRequestForm.mk "Nobody@Example.com" "correct")
    (example_world true)
  = (Raise incorrect_login, example_world true).
Proof.
  split; [reflexivity|].
  apply (C1_login_unknown_email_invalid_credentials ascii_lower plain_verify
           example_token
           (OAuth2PasswordRequestForm.mk "Nobody@Example.com" "correct")
           (example_world true)).
  reflexivity.
Defined.

(** The claim C2 as the specification words it fails on the code: a banned
    account and a password that does not verify give
    [CredentialsException]. *)
Lemma C2_counterexample :
  ~ (forall (lower : string -> string)
            (verify_password : string -> string -> bool)
            (access_token_for_user : User.t -> string)
            (settings : Settings) form_data data w i u,
        first_by_email
          (lower (OAuth2PasswordRequestForm.username form_data)) (users w)
        = Some (i, u) ->
        User.is_banned u = true ->
        lower (UserEmailIn.email data)
        = lower (OAuth2PasswordRequestForm.username form_data) ->
        fst (log_in lower verify_password access_token_for_user form_data w)
        = Raise BannedUserException /\
        fst (reset_password lower settings data w)
        = Raise BannedUserException).
Proof.
  intros H.
  destruct (H ascii_lower plain_verify example_token
              (example_settings false)
              (OAuth2PasswordRequestForm.mk "banned@example.com" "wrong")
              (UserEmailIn.mk "banned@example.com")
              (example_world true) 1
              (User.mk "banned@example.com" "secret" true None)
              eq_refl eq_refl eq_refl) as [Hlogin _].
  vm_compute in Hlogin. discriminate Hlogin.
Qed.

Lemma C2_witness :
  log_in ascii_lower plain_verify example_token
    (OAuth2PasswordRequestForm.mk "Banned@example.com" "secret")
    (example_world true)
  = (Raise BannedUserException, example_world true) /\
  reset_password ascii_lower (example_settings false)
    (UserEmailIn.mk "BANNED@example.com") (example_world true)
  = (Raise BannedUserException, example_world true).
Proof.
  apply (C2_banned_account_outcomes ascii_lower plain_verify example_token
           (example_settings false)
           (OAuth2PasswordRequestForm.mk "Banned@example.com" "secret")
           (UserEmailIn.mk "BANNED@example.com")
           (example_world true) 1
           (User.mk "banned@example.com" "secret" true None));
    reflexivity.
Defined.

Lemma C4_witness :
  fst (reset_password ascii_lower (example_settings false)
         (UserEmailIn.mk "User@Example.com") (example_world false))
  = Raise mail_failure /\
  exists u',
    first_by_email (ascii_lower "User@Example.com")
      (users (snd (reset_password ascii_lower (example_settings false)
                     (UserEmailIn.mk "User@Example.com")
                     (example_world false))))
    = Some (0, u') /\
    User.reset_uuid u' = Some 1%N /\
    User.reset_uuid u' <> None.
Proof.
  apply (C4_reset_token_persisted_on_dispatch_failure ascii_lower
           (example_settings false) (UserEmailIn.mk "User@Example.com")
           (example_world false) 0
           (User.mk "user@example.com" "correct" false None));
    reflexivity.
Defined.

Lemma C5_witness :
  ascii_lower (ascii_lower "User@Example.com")
  = ascii_lower "User@Example.com" /\
  log_in ascii_lower plain_verify example_token
    (OAuth2PasswordRequestForm.mk "User@Example.com" "correct")
    (example_world true)
  = log_in ascii_lower plain_verify example_token
      (OAuth2PasswordRequestForm.mk "user@example.com" "correct")
      (example_world true) /\
  reset_password ascii_lower (example_settings false)
    (UserEmailIn.mk "User@Example.com") (example_world true)
  = reset_password ascii_lower (example_settings false)
      (UserEmailIn.mk "user@example.com") (example_world true).
Proof.
  split; [reflexivity|].
  apply (proj1 (C5_views_lower_email_before_lookup ascii_lower plain_verify
                  example_token (example_settings false)
                  "User@Example.com" "correct" (example_world true)
                  eq_refl)).
Defined.



Lemma C7_witness :
  debug (example_settings false) = false /\
  forall w2,
    log w2 = log (example_world false) ->
    log (snd (reset_password ascii_lower (example_settings false)
                (UserEmailIn.mk "user@example.com") w2))
    = log (snd (reset_password ascii_lower (example_settings false)
                  (UserEmailIn.mk "user@example.com")
                  (example_world false))).
Proof.
  split; [reflexivity|].
  apply (proj2 (C7_reset_token_logged_only_under_debug ascii_lower plain_verify
                  example_token (example_settings false)
                  (UserEmailIn.mk "user@example.com")
                  (example_world false))).
  reflexivity.
Defined.

Lemma C8_witness :
  log_in ascii_lower plain_verify example_token
    (OAuth2PasswordRequestForm.mk "User@Example.com" "correct")
    (example_world true)
  = (Return {| access_token := "token:user@example.com";
               token_type := "bearer" |}, example_world true) /\
  log_in ascii_lower plain_verify example_token
    (OAuth2PasswordRequestForm.mk "User@Example.com" "wrong")
    (example_world true)
  = (Raise incorrect_login, example_world true).
Proof.
  split.
  - apply (C8_login_success_or_invalid ascii_lower plain_verify example_token
             (OAuth2PasswordRequestForm.mk "User@Example.com" "correct")
             (example_world true) 0
             (User.mk "user@example.com" "correct" false None));
      reflexivity.
  - apply (C8_login_success_or_invalid ascii_lower plain_verify example_token
             (OAuth2PasswordRequestForm.mk "User@Example.com" "wrong")
             (example_world true) 0
             (User.mk "user@example.com" "correct" false None));
      reflexivity.
Defined.

Lemma C9_witness :
  (exists i u,
      first_by_email (ascii_lower "banned@example.com")
        (users (example_world true)) = Some (i, u) /\
      User.is_banned u = true /\
      plain_verify "secret" (User.password u) = true) /\
  log_in ascii_lower plain_verify example_token
    (OAuth2PasswordRequestForm.mk "banned@example.com" "wrong")
    (example_world true)
  = (Raise incorrect_login, example_world true).
Proof.
  split.
  - apply (proj1 (C9_login_banned_only_after_verification ascii_lower
                    plain_verify
                    example_token
                    (OAuth2PasswordRequestForm.mk "banned@example.com"
                       "secret")
                    (example_world true))).
    reflexivity.
  - apply (proj2 (C9_login_banned_only_after_verification ascii_lower
                    plain_verify
                    example_token
                    (OAuth2PasswordRequestForm.mk "banned@example.com"
                       "wrong")
                    (example_world true)) 1
             (User.mk "banned@example.com" "secret" true None));
      reflexivity.
Defined.

Lemma C10_witness :
  first_by_email (ascii_lower "nobody@example.com") (users (example_world true))
  = None /\
  reset_password ascii_lower (example_settings true)
    (UserEmailIn.mk "nobody@example.com") (example_world true)
  = (Raise AttributeError, example_world true).
Proof.
  split; [reflexivity|].
  apply (C10_reset_lookup_miss_is_attribute_error ascii_lower
           (example_settings true)
           (UserEmailIn.mk "nobody@example.com") (example_world true)).
  reflexivity.
Defined.

(** ** Further properties of the two views *)

(** Replacing a row by one with the same address changes no lookup: the
    same position answers, with the new columns when it is the replaced
    one. *)
Lemma first_by_email_insert_same_email email (rows : list User.t) i u u' :
  rows !! i = Some u ->
  User.email u' = User.email u ->
  first_by_email email (<[i := u']> rows) =
  match first_by_email email rows with
  | Some (j, y) => Some (j, if Nat.eqb j i then u' else y)
  | None => None
  end.
Proof.
  unfold first_by_email. revert i.
  induction rows as [|x rows IH]; intros i Hi He; [discriminate|].
  destruct i as [|i]; simpl in Hi |- *.
  - injection Hi as ->. rewrite He.
    destruct (decide (User.email u = email)); [reflexivity|].
    destruct (list_find _ rows) as [[j y]|]; reflexivity.
  - destruct (decide (User.email x = email)); [reflexivity|].
    rewrite (IH i Hi He).
    destruct (list_find _ rows) as [[j y]|]; reflexivity.
Qed.

Lemma first_by_email_Some_lookup email (rows : list User.t) i u :
  first_by_email email rows = Some (i, u) -> rows !! i = Some u.
Proof.
  unfold first_by_email. intros H. apply list_find_Some in H. tauto.
Qed.

Section Further.

Variable lower : string -> string.
Variable verify_password : string -> string -> bool.
Variable access_token_for_user : User.t -> string.
Variable settings : Settings.

Local Abbreviation login :=
  (log_in lower verify_password access_token_for_user).
Local Abbreviation reset := (reset_password lower settings).
Local Abbreviation username := OAuth2PasswordRequestForm.username.
Local Abbreviation submitted := OAuth2PasswordRequestForm.password.
Local Abbreviation address := UserEmailIn.email.

(** X1: when [log_in] returns a body, the lowered username found a row
    whose stored address is that lowered username, the submitted password
    verified against its hash, the row is not banned, and the body is that
    row's access token with type "bearer". *)
Theorem X1_log_in_token_only_for_verified_account form_data w r :
  fst (login form_data w) = Return r ->
  exists i u,
    first_by_email (lower (username form_data)) (users w) = Some (i, u) /\
    User.email u = lower (username form_data) /\
    verify_password (submitted form_data) (User.password u) = true /\
    User.is_banned u = false /\
    r = {| access_token := access_token_for_user u;
           token_type := "bearer" |}.
Proof.
  rewrite log_in_cases. simpl.
  destruct (first_by_email (lower (username form_data)) (users w))
    as [[i u]|] eqn:Hq; [|discriminate].
  destruct (verify_password _ _) eqn:Hv; [|discriminate].
  destruct (User.is_banned u) eqn:Hb; [discriminate|].
  intros [= <-]. exists i, u.
  split; [reflexivity|]. split; [|auto].
  eapply first_by_email_email, Hq.
Qed.

(** X2: [log_in] has no effect on the world, whatever it is given, and
    when it fails it fails with the [CredentialsException] of an incorrect
    login or with [BannedUserException]: reading [user.password] and
    [user.is_banned] is guarded by the test of [user], so it never ends
    with [AttributeError]. *)
Theorem X2_log_in_read_only_and_failure_kinds form_data w :
  snd (login form_data w) = w /\
  (forall e, fst (login form_data w) = Raise e ->
             e = incorrect_login \/ e = BannedUserException).
Proof.
  rewrite log_in_cases. split; [reflexivity|]. simpl.
  destruct (first_by_email _ _) as [[i u]|].
  - destruct (verify_password _ _).
    + destruct (User.is_banned u); [|discriminate].
      intros e [= <-]. now right.
    + intros e [= <-]. now left.
  - intros e [= <-]. now left.
Qed.

(** X3: [reset_password] returns its confirmation exactly when the lowered
    address finds a row, the row is not banned and the dispatcher accepts
    the message; it returns no other body. *)
Theorem X3_reset_confirmed_iff_sent data w :
  (fst (reset data w) = Return reset_confirmation <->
   exists i u,
     first_by_email (lower (address data)) (users w) = Some (i, u) /\
     User.is_banned u = false /\
     mailer w 0 (reset_message settings u (uuid_source w 0)) = true) /\
  (forall r, fst (reset data w) = Return r -> r = reset_confirmation).
Proof.
  rewrite reset_password_cases.
  destruct (first_by_email (lower (address data)) (users w))
    as [[i u]|] eqn:Hq.
  - destruct (User.is_banned u) eqn:Hb; simpl.
    + split; [split|]; try discriminate.
      intros (i' & u' & [= <- <-] & Hb' & _). congruence.
    + destruct (mailer w 0 _) eqn:Hm.
      * split; [split; [|reflexivity]|].
        -- intros _. exists i, u. auto.
        -- now intros r [= <-].
      * split; [split|]; try discriminate.
        intros (i' & u' & [= <- <-] & _ & Hm'). congruence.
  - simpl. split; [split|]; try discriminate.
    intros (i' & u' & Hq' & _). discriminate.
Qed.

(** X4: a request that passes the two checks hands exactly one message to
    the dispatcher, whether it is accepted or not.  The message goes to the
    stored address, which is the lowered submitted address, uses the reset
    template of the settings, and carries the very identifier that the row
    holds afterwards. *)
Theorem X4_reset_mails_the_stored_token request w i u :
  first_by_email (lower (address request)) (users w) = Some (i, u) ->
  User.is_banned u = false ->
  exists m u',
    outbox (snd (reset request w)) = outbox w ++ [m] /\
    recipient m = lower (address request) /\
    template_id m = sendgrid_reset_template settings /\
    data_email (data m) = lower (address request) /\
    first_by_email (lower (address request)) (users (snd (reset request w)))
    = Some (i, u') /\
    reset_token (data m) = User.reset_uuid u' /\
    User.reset_uuid u' = Some (uuid_source w 0).
Proof.
  intros Hq Hb. rewrite reset_password_cases, Hq, Hb.
  exists (reset_message settings u (uuid_source w 0)),
         (User.set_reset_uuid (Some (uuid_source w 0)) u).
  pose proof (first_by_email_email _ _ _ _ Hq) as He.
  unfold snd. split; [reflexivity|].
  split; [exact He|]. split; [reflexivity|]. split; [exact He|].
  split; [now apply first_by_email_after_reset|].
  split; reflexivity.
Qed.

(** X5: [reset_password] adds no row, drops none, and never touches the
    [email], [password] or [is_banned] column of any row.  A row after the
    run is the row that was there before, unless it is the first row
    stored under the lowered address and not banned: that one differs in
    [reset_uuid] alone, which holds the identifier drawn. *)
Theorem X5_reset_changes_one_column_of_one_row data w :
  length (users (snd (reset data w))) = length (users w) /\
  (forall j u',
      users (snd (reset data w)) !! j = Some u' ->
      exists u,
        users w !! j = Some u /\
        User.email u' = User.email u /\
        User.password u' = User.password u /\
        User.is_banned u' = User.is_banned u /\
        (u' = u \/
         first_by_email (lower (address data)) (users w) = Some (j, u) /\
         User.is_banned u = false /\
         User.reset_uuid u' = Some (uuid_source w 0))).
Proof.
  rewrite reset_password_cases.
  destruct (first_by_email (lower (address data)) (users w))
    as [[i u]|] eqn:Hq.
  - destruct (User.is_banned u) eqn:Hb; simpl.
    + split; [reflexivity|]. intros j u' Hj. exists u'. auto 6.
    + split; [apply length_insert|]. intros j u' Hj.
      destruct (decide (i = j)) as [<-|Hne].
      * pose proof (first_by_email_Some_lookup _ _ _ _ Hq) as Hi.
        rewrite list_lookup_insert_eq in Hj
          by (eapply lookup_lt_Some, Hi).
        injection Hj as <-. exists u. simpl. auto 8.
      * rewrite list_lookup_insert_ne in Hj by exact Hne.
        exists u'. auto 6.
  - simpl. split; [reflexivity|]. intros j u' Hj. exists u'. auto 6.
Qed.

(** A body returned by [log_in] is the token of the row it found. *)
Lemma log_in_Return_lookup form_data w r :
  fst (login form_data w) = Return r ->
  exists i u,
    first_by_email (lower (username form_data)) (users w) = Some (i, u) /\
    r = {| access_token := access_token_for_user u;
           token_type := "bearer" |}.
Proof.
  rewrite log_in_cases. simpl.
  destruct (first_by_email (lower (username form_data)) (users w))
    as [[i u]|]; [|discriminate].
  destruct (verify_password _ _); [|discriminate].
  destruct (User.is_banned u); [discriminate|].
  intros [= <-]. eauto.
Qed.

(** X6: a reset request, by whoever and with whatever outcome, does not
    change who can log in.  A later [log_in] fails with an exception
    exactly when it failed with it before the request; when it returns a
    body, it returned one before, for the row at the same position, and
    that row is the same but for the [reset_uuid] the request may have
    set. *)
Theorem X6_login_unaffected_by_reset_request form_data data w :
  (forall e,
      fst (login form_data (snd (reset data w))) = Raise e <->
      fst (login form_data w) = Raise e) /\
  (forall r',
      fst (login form_data (snd (reset data w))) = Return r' ->
      exists i u u',
        first_by_email (lower (username form_data)) (users w)
        = Some (i, u) /\
        first_by_email (lower (username form_data))
          (users (snd (reset data w))) = Some (i, u') /\
        fst (login form_data w)
        = Return {| access_token := access_token_for_user u;
                    token_type := "bearer" |} /\
        r' = {| access_token := access_token_for_user u';
                token_type := "bearer" |} /\
        (u' = u \/
         u' = User.set_reset_uuid (Some (uuid_source w 0)) u)).
Proof.
  assert (Hsame : forall r',
             fst (login form_data w) = Return r' ->
             exists i u u',
               first_by_email (lower (username form_data)) (users w)
               = Some (i, u) /\
               first_by_email (lower (username form_data)) (users w)
               = Some (i, u') /\
               fst (login form_data w)
               = Return {| access_token := access_token_for_user u;
                           token_type := "bearer" |} /\
               r' = {| access_token := access_token_for_user u';
                       token_type := "bearer" |} /\
               (u' = u \/
                u' = User.set_reset_uuid (Some (uuid_source w 0)) u)).
  { intros r' Hr. destruct (log_in_Return_lookup _ _ _ Hr) as (i & u & Hq & ->).
    exists i, u, u. rewrite Hr. auto 6. }
  rewrite reset_password_cases.
  destruct (first_by_email (lower (address data)) (users w))
    as [[i u]|] eqn:Hq; [|split; [tauto|exact Hsame]].
  destruct (User.is_banned u); [split; [tauto|exact Hsame]|].
  clear Hsame. unfold snd. rewrite !log_in_cases. simpl.
  rewrite (first_by_email_insert_same_email _ _ i u)
    by (eauto using first_by_email_Some_lookup).
  destruct (first_by_email (lower (username form_data)) (users w))
    as [[j y]|] eqn:Hq'; [|split; [tauto|discriminate]].
  assert (Hy : Nat.eqb j i = true -> y = u).
  { intros Hji. apply Nat.eqb_eq in Hji. subst j.
    apply first_by_email_Some_lookup in Hq, Hq'. congruence. }
  destruct (Nat.eqb j i).
  - pose proof (Hy eq_refl) as ->. simpl.
    destruct (verify_password _ _); [|split; [tauto|discriminate]].
    destruct (User.is_banned u); [split; [tauto|discriminate]|].
    split; [split; discriminate|].
    intros r' [= <-].
    exists j, u, (User.set_reset_uuid (Some (uuid_source w 0)) u).
    auto 6.
  - destruct (verify_password _ _); [|split; [tauto|discriminate]].
    destruct (User.is_banned y); [split; [tauto|discriminate]|].
    split; [split; discriminate|].
    intros r' [= <-]. exists j, y, y. auto 6.
Qed.

(** X9: requests for different accounts do not disturb each other.  Once a
    request for one address has stored its identifier, a request for an
    address that lowers to something else, whatever its outcome, leaves
    that identifier on the first account's row. *)
Theorem X9_resets_of_other_accounts_keep_the_token data1 data2 w i u :
  first_by_email (lower (address data1)) (users w) = Some (i, u) ->
  User.is_banned u = false ->
  lower (address data2) <> lower (address data1) ->
  first_by_email (lower (address data1))
    (users (snd (reset data2 (snd (reset data1 w)))))
  = Some (i, User.set_reset_uuid (Some (uuid_source w 0)) u).
Proof.
  intros Hq Hb Hne.
  pose proof (first_by_email_after_reset settings _ _ _ _ Hq) as Hq1.
  rewrite (reset_password_cases _ _ data1), Hq, Hb. unfold snd at 2.
  set (w1 := world_after_reset settings (lower (address data1)) i u w)
    in *.
  rewrite reset_password_cases.
  destruct (first_by_email (lower (address data2)) (users w1))
    as [[k y]|] eqn:Hq2; [|exact Hq1].
  destruct (User.is_banned y); [exact Hq1|].
  unfold snd. simpl.
  rewrite (first_by_email_insert_same_email _ _ k y)
    by (eauto using first_by_email_Some_lookup).
  change (<[i := User.set_reset_uuid (Some (uuid_source w 0)) u]> (users w))
    with (users w1).
  rewrite Hq1.
  destruct (Nat.eqb i k) eqn:Hik; [|reflexivity].
  apply Nat.eqb_eq in Hik. subst k. exfalso.
  apply first_by_email_Some_lookup in Hq1 as H1.
  apply first_by_email_Some_lookup in Hq2 as H2.
  apply first_by_email_email in Hq1, Hq2.
  rewrite H1 in H2. injection H2 as <-. congruence.
Qed.

(** X8: an account whose stored address [str.lower] would change (one
    stored with a capital letter) is out of reach of both views, lowering
    twice being lowering once: no reset request changes its row, and every
    body [log_in] returns is the token of a row at another position. *)
Theorem X8_account_stored_with_capitals_unreachable w i u :
  (forall s, lower (lower s) = lower s) ->
  users w !! i = Some u ->
  lower (User.email u) <> User.email u ->
  (forall data,
      users (snd (reset_password lower settings data w)) !! i = Some u) /\
  (forall form_data r,
      fst (log_in lower verify_password access_token_for_user form_data w)
      = Return r ->
      exists j u',
        j <> i /\ users w !! j = Some u' /\
        r = {| access_token := access_token_for_user u';
               token_type := "bearer" |}).
Proof.
  intros Hidem Hi Hcap.
  assert (Hmiss : forall e j, first_by_email (lower e) (users w)
                              = Some (j, u) -> False).
  { intros e j Hq. apply first_by_email_email in Hq.
    apply Hcap. rewrite Hq. apply Hidem. }
  split.
  - intros data. rewrite reset_password_cases.
    destruct (first_by_email (lower (address data)) (users w))
      as [[j y]|] eqn:Hq; [|exact Hi].
    destruct (User.is_banned y); [exact Hi|]. simpl.
    destruct (decide (j = i)) as [->|Hne].
    + pose proof (first_by_email_Some_lookup _ _ _ _ Hq) as Hy.
      assert (y = u) by congruence. subst y.
      exfalso. eapply Hmiss, Hq.
    + now rewrite list_lookup_insert_ne.
  - intros form_data r. rewrite log_in_cases. simpl.
    destruct (first_by_email (lower (username form_data)) (users w))
      as [[j y]|] eqn:Hq; [|discriminate].
    destruct (verify_password _ _); [|discriminate].
    destruct (User.is_banned y); [discriminate|].
    intros [= <-]. exists j, y.
    pose proof (first_by_email_Some_lookup _ _ _ _ Hq) as Hy.
    split; [|auto].
    intros ->. assert (y = u) by congruence. subst y.
    eapply Hmiss, Hq.
Qed.

End Further.

(** X7: [settings.debug] decides nothing but the log.  Under two settings
    that differ in [debug] alone, [reset_password] gives the same result,
    the same table, the same messages and the same remaining supplies. *)
Theorem X7_debug_setting_only_affects_the_log
  (lower : string -> string) dbg1 dbg2 template data w :
  let s1 := {| debug := dbg1; sendgrid_reset_template := template |} in
  let s2 := {| debug := dbg2; sendgrid_reset_template := template |} in
  fst (reset_password lower s1 data w) = fst (reset_password lower s2 data w) /\
  users (snd (reset_password lower s1 data w))
  = users (snd (reset_password lower s2 data w)) /\
  outbox (snd (reset_password lower s1 data w))
  = outbox (snd (reset_password lower s2 data w)) /\
  uuid_source (snd (reset_password lower s1 data w))
  = uuid_source (snd (reset_password lower s2 data w)) /\
  mailer (snd (reset_password lower s1 data w))
  = mailer (snd (reset_password lower s2 data w)).
Proof.
  intros s1 s2. rewrite !reset_password_cases.
  destruct (first_by_email _ _) as [[i u]|]; [|auto].
  destruct (User.is_banned u); [auto|].
  subst s1 s2. unfold reset_message. simpl. auto.
Qed.

(** X10: which failure [reset_password] ends with tells what happened.
    It raises [BannedUserException] exactly when the lowered address finds
    a banned row, [AttributeError] exactly when it finds no row, and the
    [APIException] of the failed notification exactly when it finds a row
    that is not banned and the dispatcher rejects the message; it raises
    nothing else. *)
Theorem X10_reset_failure_kinds
  (lower : string -> string) settings request w :
  let found :=
    first_by_email (lower (UserEmailIn.email request)) (users w) in
  (fst (reset_password lower settings request w) = Raise BannedUserException <->
   exists i u, found = Some (i, u) /\ User.is_banned u = true) /\
  (fst (reset_password lower settings request w) = Raise AttributeError <->
   found = None) /\
  (fst (reset_password lower settings request w) = Raise mail_failure <->
   exists i u,
     found = Some (i, u) /\ User.is_banned u = false /\
     mailer w 0 (reset_message settings u (uuid_source w 0)) = false) /\
  (forall e,
      fst (reset_password lower settings request w) = Raise e ->
      e = BannedUserException \/ e = AttributeError \/ e = mail_failure).
Proof.
  intros found. subst found. rewrite reset_password_cases.
  destruct (first_by_email (lower (UserEmailIn.email request)) (users w))
    as [[i u]|] eqn:Hq.
  - destruct (User.is_banned u) eqn:Hb; simpl.
    + split; [split; [intros _; eauto|reflexivity]|].
      split; [split; discriminate|].
      split; [split; [discriminate|]|].
      * intros (i' & u' & [= <- <-] & Hb' & _). congruence.
      * intros e [= <-]. auto.
    + destruct (mailer w 0 _) eqn:Hm.
      * split; [split; [discriminate|]|].
        { intros (i' & u' & [= <- <-] & Hb'). congruence. }
        split; [split; discriminate|].
        split; [split; [discriminate|]|discriminate].
        intros (i' & u' & [= <- <-] & _ & Hm'). congruence.
      * split; [split; [discriminate|]|].
        { intros (i' & u' & [= <- <-] & Hb'). congruence. }
        split; [split; discriminate|].
        split; [split; [intros _; eauto|reflexivity]|].
        intros e [= <-]. auto.
  - simpl. split; [split; [discriminate|]|].
    { intros (i' & u' & Hq' & _). discriminate. }
    split; [split; reflexivity|].
    split; [split; [discriminate|]|].
    + intros (i' & u' & Hq' & _). discriminate.
    + intros e [= <-]. auto.
Qed.

Lemma X1_witness :
  exists i u,
    first_by_email (ascii_lower "User@Example.com") (users (example_world true))
    = Some (i, u) /\
    User.email u = ascii_lower "User@Example.com" /\
    plain_verify "correct" (User.password u) = true /\
    User.is_banned u = false /\
    {| access_token := "token:user@example.com"; token_type := "bearer" |}
    = {| access_token := example_token u; token_type := "bearer" |}.
Proof.
  apply (X1_log_in_token_only_for_verified_account ascii_lower plain_verify
           example_token
           (OAuth2PasswordRequestForm.mk "User@Example.com" "correct")
           (example_world true)).
  reflexivity.
Defined.

Lemma X4_witness :
  exists m u',
    outbox (snd (reset_password ascii_lower (example_settings false)
                   (UserEmailIn.mk "User@Example.com")
                   (example_world false)))
    = outbox (example_world false) ++ [m] /\
    recipient m = ascii_lower "User@Example.com" /\
    template_id m = "d-reset" /\
    data_email (data m) = ascii_lower "User@Example.com" /\
    first_by_email (ascii_lower "User@Example.com")
      (users (snd (reset_password ascii_lower (example_settings false)
                     (UserEmailIn.mk "User@Example.com")
                     (example_world false))))
    = Some (0, u') /\
    reset_token (data m) = User.reset_uuid u' /\
    User.reset_uuid u' = Some 1%N.
Proof.
  apply (X4_reset_mails_the_stored_token ascii_lower
           (example_settings false)
           (UserEmailIn.mk "User@Example.com") (example_world false) 0
           (User.mk "user@example.com" "correct" false None));
    reflexivity.
Defined.

Lemma X8_witness :
  users example_mixed_world !! 0
  = Some (User.mk "Admin@Example.com" "root" false None) /\
  ascii_lower "Admin@Example.com" <> "Admin@Example.com" /\
  users (snd (reset_password ascii_lower (example_settings false)
                (UserEmailIn.mk "Admin@Example.com")
                example_mixed_world)) !! 0
  = Some (User.mk "Admin@Example.com" "root" false None).
Proof.
  split; [reflexivity|]. split; [discriminate|].
  apply (proj1 (X8_account_stored_with_capitals_unreachable ascii_lower
                  plain_verify example_token (example_settings false)
                  example_mixed_world 0
                  (User.mk "Admin@Example.com" "root" false None)
                  ascii_lower_idempotent eq_refl ltac:(discriminate))).
Defined.

Lemma X9_witness :
  first_by_email (ascii_lower "Alice@example.com")
    (users (snd (reset_password ascii_lower (example_settings false)
                   (UserEmailIn.mk "bob@example.com")
                   (snd (reset_password ascii_lower (example_settings false)
                           (UserEmailIn.mk "Alice@example.com")
                           example_pair_world)))))
  = Some (0, User.mk "alice@example.com" "a-secret" false (Some 1%N)).
Proof.
  apply (X9_resets_of_other_accounts_keep_the_token ascii_lower
           (example_settings false)
           (UserEmailIn.mk "Alice@example.com")
           (UserEmailIn.mk "bob@example.com")
           example_pair_world 0
           (User.mk "alice@example.com" "a-secret" false None));
    [reflexivity | reflexivity | discriminate].
Defined.
